(** * AddBusiness: the business form and its spreadsheet import

    A shallow embedding of [client/src/pages/AddBusiness.tsx]: the form
    state held by the component ([formData], [importError]), the state
    updaters for the machinery list, the single-record submit and the
    spreadsheet import.

    JavaScript values are embedded as a tree type, objects as property lists
    in creation order, arrays as lists of slots (a slot may be a hole).
    Handlers run in a small monad that threads the component state and the
    trace of effects, reads the outside world (environment variables, the
    network, the file reader, the spreadsheet parser) from an oracle, and
    propagates thrown exceptions to the nearest [try_catch]. *)

From Stdlib Require Import ZArith Ascii String.
From stdpp Require Import base tactics option list strings pretty.

Local Open Scope string_scope.
Local Open Scope Z_scope.

(** ** JavaScript values *)

Module Js.

(** A slot [None] of an array is a hole: an index below [length] that holds
    no element.  An array is its elements: a named property put on an array
    object is not kept.  Numbers are the integers JavaScript prints in plain
    decimal (magnitude below 10^21); fractions, NaN and the infinities are
    left out. *)
#[warnings="-register-all"]
Inductive JsVal : Type :=
| JUndefined
| JNull
| JBool (b : bool)
| JNum (z : Z)
| JStr (s : string)
| JArr (slots : list (option JsVal))
| JObj (props : list (string * JsVal)).

(** An object is the list of its own properties, in creation order (the order
    JavaScript enumerates keys that are not array indices). *)
Abbreviation Obj := (list (string * JsVal)).
Abbreviation Slots := (list (option JsVal)).

(** [o[k]]: the first binding of [k], [undefined] when there is none. *)
Fixpoint get_prop (k : string) (o : Obj) : JsVal :=
  match o with
  | [] => JUndefined
  | (k', v) :: o' => if String.eqb k k' then v else get_prop k o'
  end.

Fixpoint has_prop (k : string) (o : Obj) : bool :=
  match o with
  | [] => false
  | (k', _) :: o' => if String.eqb k k' then true else has_prop k o'
  end.

(** [{...o, [k]: v}]: an existing key keeps its place and takes the new
    value, a new key goes to the end.  That is the order of JavaScript for
    every key that is no array index.  A new key written in digits only,
    which JavaScript would put before the other keys, goes to the end here
    too: the order of keys is faithful for the other names only, the field
    names of the form and of a machine among them. *)
Fixpoint set_prop (k : string) (v : JsVal) (o : Obj) : Obj :=
  match o with
  | [] => [(k, v)]
  | (k', v') :: o' =>
      if String.eqb k k' then (k', v) :: o' else (k', v') :: set_prop k v o'
  end.

(** ToBoolean. *)
Definition truthy (v : JsVal) : bool :=
  match v with
  | JUndefined | JNull => false
  | JBool b => b
  | JNum z => negb (z =? 0)
  | JStr s => negb (String.eqb s EmptyString)
  | JArr _ | JObj _ => true
  end.

(** [a || b]. *)
Definition js_or (a b : JsVal) : JsVal := if truthy a then a else b.

(** The characters of a string, each as a one-character string. *)
Fixpoint chars (s : string) : list string :=
  match s with
  | EmptyString => []
  | String c s' => String c EmptyString :: chars s'
  end.

(** [[...v]]: the values the iterator of [v] yields.  An array yields one
    value per index below its length, [undefined] at a hole; a string yields
    its characters; anything else is not iterable and the spread throws a
    TypeError ([None]). *)
Definition spread_iterable (v : JsVal) : option (list JsVal) :=
  match v with
  | JArr slots => Some (map (fun s => default JUndefined s) slots)
  | JStr s => Some (map JStr (chars s))
  | _ => None
  end.

Definition dense (vs : list JsVal) : Slots := map Some vs.

(** The index-keyed properties of array slots, holes left out. *)
Fixpoint indexed_from (i : Z) (slots : Slots) : Obj :=
  match slots with
  | [] => []
  | None :: rest => indexed_from (i + 1) rest
  | Some v :: rest => (pretty i, v) :: indexed_from (i + 1) rest
  end.

(** [{...v}]: the own enumerable properties of [v]; [undefined], [null],
    booleans and numbers have none. *)
Definition spread_props (v : JsVal) : Obj :=
  match v with
  | JObj props => props
  | JArr slots => indexed_from 0 slots
  | JStr s => indexed_from 0 (dense (map JStr (chars s)))
  | _ => []
  end.

(** An array index is an integer in [0, 2^32 - 1). *)
Definition is_array_index (i : Z) : bool := (0 <=? i) && (i <? 2 ^ 32 - 1).

(** [a[i]] read on the elements: a hole, a position past the end and a key
    that is no array index all read [undefined]. *)
Definition array_get (a : Slots) (i : Z) : JsVal :=
  if is_array_index i
  then match a !! Z.to_nat i with
       | Some (Some v) => v
       | _ => JUndefined
       end
  else JUndefined.

(** [a[i] = v] on the elements.  Inside the array the slot is overwritten.
    At or past the end the array grows to length [i + 1], the positions in
    between becoming holes.  A key that is no array index becomes a named
    property of the array object, which is no element: the slots stay as
    they are, and the named property is not kept.  Only integer keys are
    covered. *)
Definition array_set (a : Slots) (i : Z) (v : JsVal) : Slots :=
  if is_array_index i
  then let n := Z.to_nat i in
       if (n <? length a)%nat
       then <[n := Some v]> a
       else a ++ replicate (n - length a)%nat None ++ [Some v]
  else a.

(** [a.filter((_, i) => p(i))]: the callback is not called at a hole, and
    the result is dense. *)
Fixpoint filter_index_from (i : Z) (p : Z -> bool) (a : Slots) : Slots :=
  match a with
  | [] => []
  | None :: rest => filter_index_from (i + 1) p rest
  | Some v :: rest =>
      if p i then Some v :: filter_index_from (i + 1) p rest
      else filter_index_from (i + 1) p rest
  end.

(** The method call [v.filter(...)]: only arrays have the method, on any
    other value the call throws a TypeError ([None]). *)
Definition filter_method (v : JsVal) (p : Z -> bool) : option Slots :=
  match v with
  | JArr a => Some (filter_index_from 0 p a)
  | _ => None
  end.

(** *** JSON.stringify *)

Definition dquote : ascii := "034"%char.
Definition backslash : ascii := "092"%char.

Definition hex_digit (n : N) : ascii :=
  match n with
  | 0 => "0" | 1 => "1" | 2 => "2" | 3 => "3" | 4 => "4" | 5 => "5"
  | 6 => "6" | 7 => "7" | 8 => "8" | 9 => "9" | 10 => "a" | 11 => "b"
  | 12 => "c" | 13 => "d" | 14 => "e" | _ => "f"
  end%N%char.

(** One character of a quoted JSON string: the quote and the backslash are
    escaped, a control character is written by its short escape or as
    [\u00XX], every other character stands for itself. *)
Definition escape_char (c : ascii) : string :=
  let n := N_of_ascii c in
  if Ascii.eqb c dquote then String backslash (String dquote EmptyString)
  else if Ascii.eqb c backslash then String backslash (String backslash EmptyString)
  else if (n =? 8)%N then String backslash "b"
  else if (n =? 9)%N then String backslash "t"
  else if (n =? 10)%N then String backslash "n"
  else if (n =? 12)%N then String backslash "f"
  else if (n =? 13)%N then String backslash "r"
  else if (n <? 32)%N
       then String backslash
              ("u00" ++ String (hex_digit (n / 16)) (String (hex_digit (n mod 16)) EmptyString))
  else String c EmptyString.

Fixpoint escape (s : string) : string :=
  match s with
  | EmptyString => EmptyString
  | String c s' => escape_char c ++ escape s'
  end.

Definition quote (s : string) : string :=
  String dquote (escape s ++ String dquote EmptyString).

Fixpoint join_comma (parts : list string) : string :=
  match parts with
  | [] => EmptyString
  | [p] => p
  | p :: rest => p ++ "," ++ join_comma rest
  end.

(** [JSON.stringify(v)] without indentation.  [undefined] has no JSON text
    ([None]); a property whose value has none is left out of its object; an
    array position whose value has none, and a hole, are written [null].
    A number is written in plain decimal, which is what JavaScript writes
    for an integer of magnitude below 10^21. *)
Fixpoint JSON_stringify (v : JsVal) : option string :=
  match v with
  | JUndefined => None
  | JNull => Some "null"
  | JBool b => Some (if b then "true" else "false")
  | JNum z => Some (pretty z)
  | JStr s => Some (quote s)
  | JArr slots =>
      let fix elements (l : Slots) : list string :=
        match l with
        | [] => []
        | None :: l' => "null" :: elements l'
        | Some x :: l' => default "null" (JSON_stringify x) :: elements l'
        end in
      Some ("[" ++ join_comma (elements slots) ++ "]")
  | JObj props =>
      let fix members (l : Obj) : list string :=
        match l with
        | [] => []
        | (k, x) :: l' =>
            match JSON_stringify x with
            | Some t => (quote k ++ ":" ++ t) :: members l'
            | None => members l'
            end
        end in
      Some ("{" ++ join_comma (members props) ++ "}")
  end.

End Js.
Export Js.

(** ** The form *)

(** [interface MachineForm]: five string fields. *)
Definition initialMachineForm : Obj :=
  [ ("name", JStr "");
    ("description", JStr "");
    ("manufacturer", JStr "");
    ("yearOfManufacture", JStr "");
    ("specifications", JStr "") ].

(** [interface BusinessForm]: [name] and the two flags are required, the
    other fields optional. *)
Definition initialBusinessForm : Obj :=
  [ ("name", JStr "");
    ("corporateId", JStr "");
    ("phone", JStr "");
    ("website", JStr "");
    ("description", JStr "");
    ("businessType", JStr "");
    ("location", JStr "");
    ("email", JStr "");
    ("isOpen", JBool true);
    ("openToNewBusiness", JBool true);
    ("machinery", JArr []) ].

(** *** State updaters

    Each is the function handed to [setFormData]: from the previous form to
    the next one.  [index] is the number the caller passes; a fractional
    index or NaN names no position and no element, as a negative one does.
    A missing or falsy [machinery] counts as the empty list.  Where it is
    truthy and cannot be spread, or has no [filter] method, the updater
    throws a TypeError, written [None]. *)

Definition handleInputChange (name value : string) (prev : Obj) : Obj :=
  set_prop name (JStr value) prev.

Definition handleSwitchChange (name : string) (checked : bool) (prev : Obj) : Obj :=
  set_prop name (JBool checked) prev.

Definition handleMachineChange (index : Z) (name value : string) (prev : Obj)
  : option Obj :=
  match spread_iterable (js_or (get_prop "machinery" prev) (JArr [])) with
  | None => None
  | Some copied =>
      let newMachinery := dense copied in
      let newMachinery :=
        array_set newMachinery index
          (JObj (set_prop name (JStr value)
                   (spread_props (array_get newMachinery index)))) in
      Some (set_prop "machinery" (JArr newMachinery) prev)
  end.

Definition addMachine (prev : Obj) : option Obj :=
  match spread_iterable (js_or (get_prop "machinery" prev) (JArr [])) with
  | None => None
  | Some copied =>
      Some (set_prop "machinery"
              (JArr (dense (copied ++ [JObj (spread_props (JObj initialMachineForm))])))
              prev)
  end.

Definition removeMachine (index : Z) (prev : Obj) : option Obj :=
  match filter_method (js_or (get_prop "machinery" prev) (JArr []))
          (fun i => negb (i =? index)) with
  | None => None
  | Some kept => Some (set_prop "machinery" (JArr kept) prev)
  end.

(** The machinery list of a form, when it holds one. *)
Definition machinery (form : Obj) : option Slots :=
  match get_prop "machinery" form with
  | JArr a => Some a
  | _ => None
  end.

(** ** The outside world *)

(** A file picked in the file input; the reader decides what reading it
    gives. *)
Record File := { fileName : string }.

Inductive Cell :=
| CStr (s : string)
| CNum (z : Z)
| CBool (b : bool).

(** A sheet is a grid of cells, row by row; [None] is a cell without data. *)
Abbreviation Worksheet := (list (list (option Cell))).

Record Workbook := {
  SheetNames : list string;
  Sheets : list (string * Worksheet)
}.

Inductive JsError :=
| ErrorMsg (message : string)
| FetchRejected
| BodyNotJson
| WorkbookUnreadable
| ReaderUnusable.

Record Request := {
  url : string;
  method : string;
  headers : list (string * string);
  body : option string
}.

(** What the component looks at in a response: the [ok] flag, and the value
    [response.json()] resolves to ([None]: the body does not parse and the
    promise rejects). *)
Record Response := { ok : bool; json : option JsVal }.

(** What [reader.readAsBinaryString(file)] leads to: the call itself throws,
    or the reader later fires [error], or it later fires [load] with the
    content. *)
Inductive ReadOutcome :=
| ReadThrows
| ReadFails
| ReadLoads (data : string).

(** The event a reader fires after the handler that started it returned. *)
Inductive ReaderEvent :=
| OnLoad (data : string)
| OnError.

(** The oracle: build-time environment variables, the network ([None]: the
    fetch promise rejects), the file reader, and [XLSX.read] ([None]: the
    parser throws).  The parser is the [xlsx] package, not part of the
    repository. *)
Record Env := {
  process_env : string -> option string;
  fetch : Request -> option Response;
  readAsBinaryString : File -> ReadOutcome;
  XLSX_read : string -> option Workbook
}.

Inductive Event :=
| EPreventDefault
| EFetch (req : Request)
| ENavigate (to : string)
| EConsoleError (label : string) (error : JsError)
| EConsoleLog (label : string) (v : JsVal)
| EUnhandledRejection (error : JsError).

(** The two state slots of the component, and what it has done so far. *)
Record World := {
  formData : Obj;
  importError : option string;
  trace : list Event
}.

(** ** The handler monad *)

Inductive Completion (A : Type) :=
| Returns (a : A)
| Throws (error : JsError).
Arguments Returns {A} a.
Arguments Throws {A} error.

Definition M (A : Type) : Type := Env -> World -> Completion A * World.

#[global] Instance M_ret : MRet M := fun A a _ w => (Returns a, w).

#[global] Instance M_bind : MBind M := fun A B f m env w =>
  match m env w with
  | (Returns a, w') => f a env w'
  | (Throws error, w') => (Throws error, w')
  end.

Definition throw {A} (error : JsError) : M A := fun _ w => (Throws error, w).

Definition try_catch {A} (block : M A) (handler : JsError -> M A) : M A :=
  fun env w =>
    match block env w with
    | (Returns a, w') => (Returns a, w')
    | (Throws error, w') => handler error env w'
    end.

Definition emit (ev : Event) : M unit := fun _ w =>
  (Returns (), {| formData := formData w;
                  importError := importError w;
                  trace := trace w ++ [ev] |}).

Definition setImportError (message : option string) : M unit := fun _ w =>
  (Returns (), {| formData := formData w;
                  importError := message;
                  trace := trace w |}).

Definition readFormData : M Obj := fun _ w => (Returns (formData w), w).

(** Reading the environment changes nothing. *)
Definition asks {A} (f : Env -> A) : M A := fun env w => (Returns (f env), w).

(** The request goes out, then its promise settles. *)
Definition js_fetch (req : Request) : M Response := fun env w =>
  let w' := {| formData := formData w;
               importError := importError w;
               trace := trace w ++ [EFetch req] |} in
  match fetch env req with
  | Some response => (Returns response, w')
  | None => (Throws FetchRejected, w')
  end.

Definition response_json (response : Response) : M JsVal :=
  match json response with
  | Some v => mret v
  | None => throw BodyNotJson
  end.

Definition navigate (to : string) : M unit := emit (ENavigate to).
Definition console_error (label : string) (error : JsError) : M unit :=
  emit (EConsoleError label error).
Definition console_log (label : string) (v : JsVal) : M unit :=
  emit (EConsoleLog label v).

(** An [undefined] inside a template literal reads as the word. *)
Definition template (v : option string) : string := default "undefined" v.

Definition apiUrl (env : Env) : option string :=
  if decide (process_env env "NODE_ENV" = Some "production")
  then process_env env "REACT_APP_API_URL_PROD"
  else process_env env "REACT_APP_API_URL".

(** The second argument of both [fetch] calls: a POST carrying
    [JSON.stringify(payload)]. *)
Definition post_json (to : string) (payload : JsVal) : Request :=
  {| url := to;
     method := "POST";
     headers := [("Content-Type", "application/json")];
     body := JSON_stringify payload |}.

(** ** Single-record submit *)

Definition handleSubmit : M unit :=
  emit EPreventDefault;;
  try_catch
    (base ← asks apiUrl;
     form ← readFormData;
     response ← js_fetch (post_json (template base ++ "/api/businesses") (JObj form));
     (if negb (ok response)
      then throw (ErrorMsg "Failed to create business")
      else mret ());;
     navigate "/businesses")
    (fun error => console_error "Error creating business:" error).

(** ** Spreadsheet import *)

Definition cell_value (c : Cell) : JsVal :=
  match c with
  | CStr s => JStr s
  | CNum z => JNum z
  | CBool b => JBool b
  end.

Definition cell_key (c : Cell) : string :=
  match c with
  | CStr s => s
  | CNum z => pretty z
  | CBool b => if b then "true" else "false"
  end.

(** Modelled from the spec: [XLSX.utils.sheet_to_json] belongs to the [xlsx]
    package and is not in the sources.  One data row against the header row:
    a column contributes its header as key and the row's cell as value when
    both cells hold data, and nothing otherwise. *)
Fixpoint row_object (header row : list (option Cell)) (acc : Obj) : Obj :=
  match header, row with
  | Some h :: header', Some c :: row' =>
      row_object header' row' (set_prop (cell_key h) (cell_value c) acc)
  | _ :: header', _ :: row' => row_object header' row' acc
  | _, _ => acc
  end.

(** Modelled from the spec: [XLSX.utils.sheet_to_json], see [row_object].
    The first row gives the keys, every later row one row-object, in sheet
    order; a missing sheet gives no rows. *)
Definition sheet_to_json (sheet : option Worksheet) : list JsVal :=
  match sheet with
  | Some (header :: rows) => map (fun row => JObj (row_object header row [])) rows
  | _ => []
  end.

Fixpoint lookup_sheet (name : string) (sheets : list (string * Worksheet))
  : option Worksheet :=
  match sheets with
  | [] => None
  | (name', sheet) :: sheets' =>
      if String.eqb name name' then Some sheet else lookup_sheet name sheets'
  end.

(** [XLSX.read(data, { type: 'binary' })]. *)
Definition parse_workbook (data : string) : M Workbook := fun env w =>
  match XLSX_read env data with
  | Some workbook => (Returns workbook, w)
  | None => (Throws WorkbookUnreadable, w)
  end.

(** [reader.onload]: runs once the content is there. *)
Definition reader_onload (data : string) : M unit :=
  workbook ← parse_workbook data;
  let sheetName := head (SheetNames workbook) in
  let worksheet := lookup_sheet (template sheetName) (Sheets workbook) in
  let jsonData := sheet_to_json worksheet in
  base ← asks apiUrl;
  try_catch
    (response ← js_fetch
       (post_json (template base ++ "/api/businesses/bulk")
          (JObj [("businesses", JArr (dense jsonData))]));
     (if negb (ok response)
      then throw (ErrorMsg "Failed to import businesses")
      else mret ());;
     result ← response_json response;
     console_log "Import successful:" result;;
     navigate "/businesses")
    (fun error =>
       setImportError
         (Some "Failed to import businesses. Please check your spreadsheet format.");;
       console_error "Import error:" error).

(** [reader.onerror]. *)
Definition reader_onerror : M unit :=
  setImportError (Some "Error reading file").

(** [reader.readAsBinaryString(file)] with both callbacks registered. *)
Definition start_read (file : File) : M (option ReaderEvent) := fun env w =>
  match readAsBinaryString env file with
  | ReadThrows => (Throws ReaderUnusable, w)
  | ReadFails => (Returns (Some OnError), w)
  | ReadLoads data => (Returns (Some (OnLoad data)), w)
  end.

(** The handler of the file input, up to its return: it starts the read and
    answers with the event the reader will fire, if any.  [files] is
    [event.target.files]. *)
Definition handleFileUpload (files : option (list File)) : M (option ReaderEvent) :=
  let file := files ≫= head in
  setImportError None;;
  match file with
  | None => mret None
  | Some file =>
      try_catch
        (start_read file)
        (fun error =>
           setImportError (Some "Error processing file");;
           console_error "File processing error:" error;;
           mret None)
  end.

(** An [async] callback nobody awaits: what it throws rejects a promise
    without a handler. *)
Definition unawaited (callback : M unit) : M unit :=
  try_catch callback (fun error => emit (EUnhandledRejection error)).

(** The import from the file selection to the end: the handler, then the
    reader's event with the callback registered for it. *)
Definition import_pipeline (files : option (list File)) : M unit :=
  fired ← handleFileUpload files;
  match fired with
  | None => mret ()
  | Some (OnLoad data) => unawaited (reader_onload data)
  | Some OnError => reader_onerror
  end.

(** The state of a freshly mounted component. *)
Definition mounted : World :=
  {| formData := initialBusinessForm; importError := None; trace := [] |}.

(** The requests and the navigations of a trace, in order. *)
Definition requests (t : list Event) : list Request :=
  omap (fun ev => match ev with EFetch req => Some req | _ => None end) t.

Definition navigations (t : list Event) : list string :=
  omap (fun ev => match ev with ENavigate to => Some to | _ => None end) t.

(** ** Requests and sample data *)

(** A string between quotes, for texts that need no escape. *)
Definition quoted (s : string) : string :=
  String dquote (s ++ String dquote EmptyString).

(** The request a submit sends for a record. *)
Definition create_request (env : Env) (form : Obj) : Request :=
  post_json (template (apiUrl env) ++ "/api/businesses") (JObj form).

(** The record of the submit example. *)
Definition acme : Obj := [("name", JStr "Acme")].

Definition acme_body : string := "{" ++ quoted "name" ++ ":" ++ quoted "Acme" ++ "}".

(** The request the import sends for a workbook. *)
Definition bulk_request (env : Env) (workbook : Workbook) : Request :=
  post_json (template (apiUrl env) ++ "/api/businesses/bulk")
    (JObj [("businesses",
            JArr (dense (sheet_to_json
                           (lookup_sheet (template (head (SheetNames workbook)))
                              (Sheets workbook)))))]).

Definition joes_sheet : Worksheet :=
  [ [Some (CStr "name"); Some (CStr "phone")];
    [Some (CStr "Joe's Shop"); Some (CStr "555-1234")] ].

Definition joes_workbook : Workbook :=
  {| SheetNames := ["Sheet1"]; Sheets := [("Sheet1", joes_sheet)] |}.

Definition joes_body : string :=
  "{" ++ quoted "businesses" ++ ":[{"
      ++ quoted "name" ++ ":" ++ quoted "Joe's Shop" ++ ","
      ++ quoted "phone" ++ ":" ++ quoted "555-1234" ++ "}]}".

(** A development build whose reader, parser and server answer as given. *)
Definition sample_env (read : ReadOutcome) (parsed : option Workbook)
    (answer : option Response) : Env :=
  {| process_env := fun name =>
       if String.eqb name "REACT_APP_API_URL" then Some "http://localhost:5000" else None;
     fetch := fun _ => answer;
     readAsBinaryString := fun _ => read;
     XLSX_read := fun _ => parsed |}.

Definition sample_file : File := {| fileName := "businesses.xlsx" |}.

(** A form with two machines. *)
Definition two_machines : Obj :=
  set_prop "machinery"
    (JArr (dense [JObj [("name", JStr "lathe")]; JObj [("name", JStr "press")]]))
    initialBusinessForm.

(** A production build that has the development address only. *)
Definition production_without_url : Env :=
  {| process_env := fun name =>
       if String.eqb name "NODE_ENV" then Some "production"
       else if String.eqb name "REACT_APP_API_URL" then Some "http://localhost:5000"
       else None;
     fetch := fun _ => None;
     readAsBinaryString := fun _ => ReadFails;
     XLSX_read := fun _ => None |}.

(** The form a change at index 2 makes of a fresh one: two holes, then the
    machine. *)
Definition grown_form : Obj :=
  set_prop "machinery"
    (JArr [None; None; Some (JObj [("name", JStr "mill")])])
    initialBusinessForm.

(** Content that starts as a ZIP archive and stops: a damaged workbook. *)
Definition truncated_xlsx : string :=
  String "P" (String "K" (String "003" (String "004" EmptyString))).

Definition is_digit (c : ascii) : bool :=
  (48 <=? N_of_ascii c)%N && (N_of_ascii c <=? 57)%N.

Fixpoint all_digits (s : string) : bool :=
  match s with
  | EmptyString => true
  | String c s' => is_digit c && all_digits s'
  end.

(** A key written in digits only.  Every key JavaScript treats as an array
    index is one. *)
Definition integer_like (k : string) : bool :=
  negb (String.eqb k EmptyString) && all_digits k.

(** ** Sequences of edits *)

(** One change of a text input or of a switch. *)
Inductive FieldEdit :=
| EditInput (name value : string)
| EditSwitch (name : string) (checked : bool).

Definition edit_name (e : FieldEdit) : string :=
  match e with
  | EditInput name _ => name
  | EditSwitch name _ => name
  end.

Definition apply_edit (e : FieldEdit) (prev : Obj) : Obj :=
  match e with
  | EditInput name value => handleInputChange name value prev
  | EditSwitch name checked => handleSwitchChange name checked prev
  end.


(** One call of a machinery updater. *)
Inductive MachineOp :=
| OpAdd
| OpRemove (index : Z)
| OpChange (index : Z) (name value : string).

Definition apply_op (op : MachineOp) (prev : Obj) : option Obj :=
  match op with
  | OpAdd => addMachine prev
  | OpRemove index => removeMachine index prev
  | OpChange index name value => handleMachineChange index name value prev
  end.

Fixpoint apply_ops (ops : list MachineOp) (prev : Obj) : option Obj :=
  match ops with
  | [] => Some prev
  | op :: rest =>
      match apply_op op prev with
      | Some next => apply_ops rest next
      | None => None
      end
  end.

(** The same operations replayed on a plain list: append at the end, delete
    a position, replace an element.  A removal that hits no position changes
    nothing. *)
Definition list_op (op : MachineOp) (ms : list JsVal) : list JsVal :=
  match op with
  | OpAdd => ms ++ [JObj initialMachineForm]
  | OpRemove index =>
      if (0 <=? index) && (index <? Z.of_nat (length ms))
      then delete (Z.to_nat index) ms
      else ms
  | OpChange index name value =>
      match ms !! Z.to_nat index with
      | Some m =>
          <[Z.to_nat index := JObj (set_prop name (JStr value) (spread_props m))]> ms
      | None => ms
      end
  end.

(** A change is replayable when its index names an element. *)
Definition op_in_range (op : MachineOp) (ms : list JsVal) : bool :=
  match op with
  | OpChange index _ _ =>
      (0 <=? index) && (index <? Z.of_nat (length ms)) && is_array_index index
  | _ => true
  end.

Fixpoint ops_in_range (ops : list MachineOp) (ms : list JsVal) : bool :=
  match ops with
  | [] => true
  | op :: rest => op_in_range op ms && ops_in_range rest (list_op op ms)
  end.

Definition list_ops (ops : list MachineOp) (ms : list JsVal) : list JsVal :=
  fold_left (fun l op => list_op op l) ops ms.

(** ** What is rendered *)

(** [{importError && <Alert>...}]: the alert is there when the message is
    truthy. *)
Definition alert_shown (w : World) : bool :=
  match importError w with
  | Some message => truthy (JStr message)
  | None => false
  end.

(** The three messages the import can set. *)
Definition import_messages : list string :=
  [ "Error reading file";
    "Error processing file";
    "Failed to import businesses. Please check your spreadsheet format." ].

(** ** Properties of objects and arrays *)

Section Properties.

Implicit Types (k name : string) (v : JsVal) (o prev next : Obj).
Implicit Types (a : Slots) (ms : list JsVal).

Lemma get_set_prop_eq k v o : get_prop k (set_prop k v o) = v.
Proof.
  induction o as [|[k' v'] o IH]; simpl.
  - by rewrite String.eqb_refl.
  - destruct (String.eqb k k') eqn:E; simpl; rewrite E; done.
Qed.

Lemma get_set_prop_ne k k' v o :
  k <> k' -> get_prop k (set_prop k' v o) = get_prop k o.
Proof.
  intros Hne. induction o as [|[k1 v1] o IH]; simpl.
  - apply String.eqb_neq in Hne. by rewrite Hne.
  - destruct (String.eqb k' k1) eqn:E; simpl.
    + apply String.eqb_eq in E. subst k1.
      apply String.eqb_neq in Hne. by rewrite Hne.
    + by rewrite IH.
Qed.

Lemma get_prop_has k o : get_prop k o <> JUndefined -> has_prop k o = true.
Proof.
  induction o as [|[k' v'] o IH]; simpl; [done|].
  destruct (String.eqb k k'); auto.
Qed.

Lemma set_prop_keys k v o :
  has_prop k o = true -> map fst (set_prop k v o) = map fst o.
Proof.
  induction o as [|[k' v'] o IH]; simpl; [done|].
  destruct (String.eqb k k'); simpl; [done|].
  intros H. by rewrite IH.
Qed.

Lemma set_prop_same k o :
  has_prop k o = true -> set_prop k (get_prop k o) o = o.
Proof.
  induction o as [|[k' v'] o IH]; simpl; [done|].
  destruct (String.eqb k k'); [done|].
  intros H. by rewrite IH.
Qed.

Lemma length_dense ms : length (dense ms) = length ms.
Proof. apply length_map. Qed.

(** An array of elements is its own spread. *)
Lemma spread_dense ms : spread_iterable (JArr (dense ms)) = Some ms.
Proof.
  simpl. f_equal. unfold dense. induction ms as [|m ms IH]; simpl; congruence.
Qed.

(** A filter whose test holds at every position keeps an array of
    elements as it is. *)
Lemma filter_index_all ms : forall (base : Z) (p : Z -> bool),
  (forall j, base <= j < base + Z.of_nat (length ms) -> p j = true) ->
  filter_index_from base p (dense ms) = dense ms.
Proof.
  induction ms as [|m ms IH]; intros base p Hp; simpl in *; [done|].
  rewrite Hp by lia. f_equal. apply IH. intros j Hj. apply Hp. lia.
Qed.

(** Filtering out one position of an array of elements deletes that
    position and keeps the others in order. *)
Lemma filter_index_delete ms : forall (base : Z) (i : nat),
  (i < length ms)%nat ->
  filter_index_from base (fun j => negb (j =? base + Z.of_nat i)) (dense ms)
  = dense (delete i ms).
Proof.
  induction ms as [|m ms IH]; intros base i Hi; simpl in *; [lia|].
  destruct i as [|i].
  - replace (base + Z.of_nat 0) with base by lia.
    rewrite Z.eqb_refl. simpl.
    apply filter_index_all. intros j Hj.
    apply negb_true_iff, Z.eqb_neq. lia.
  - rewrite (proj2 (Z.eqb_neq base (base + Z.of_nat (S i)))) by lia. simpl.
    f_equal.
    replace (base + Z.of_nat (S i)) with (base + 1 + Z.of_nat i) by lia.
    apply IH. lia.
Qed.

(** Once [machinery] holds an array, the fallback of [||] is not taken. *)
Lemma machinery_or_empty prev a :
  get_prop "machinery" prev = JArr a ->
  js_or (get_prop "machinery" prev) (JArr []) = JArr a.
Proof. intros ->. done. Qed.

Lemma machinery_set a o : machinery (set_prop "machinery" (JArr a) o) = Some a.
Proof. unfold machinery. by rewrite get_set_prop_eq. Qed.

(** What [removeMachine] computes on a list of elements, whatever the
    index. *)
Lemma removeMachine_dense prev ms index :
  get_prop "machinery" prev = JArr (dense ms) ->
  removeMachine index prev
  = Some (set_prop "machinery"
            (JArr (filter_index_from 0 (fun i => negb (i =? index)) (dense ms)))
            prev).
Proof.
  intros Hm. unfold removeMachine. by rewrite (machinery_or_empty _ _ Hm).
Qed.

End Properties.

(** ** The machinery list *)

(** C2, as stated, fails on a list with holes: [filter] does not visit a
    hole, so a removal drops every hole with the position it is asked to
    drop.  The list of length 3 a change at index 2 makes of a fresh form
    has two holes; removing index 0 leaves one element, not two, and
    removing index 2 leaves none. *)
Lemma removeMachine_in_range_holes :
  handleMachineChange 2 "name" "mill" initialBusinessForm = Some grown_form
  /\ machinery grown_form = Some [None; None; Some (JObj [("name", JStr "mill")])]
  /\ length [None; None; Some (JObj [("name", JStr "mill")])] = 3%nat
  /\ (removeMachine 0 grown_form ≫= machinery)
     = Some [Some (JObj [("name", JStr "mill")])]
  /\ length [Some (JObj [("name", JStr "mill")])] <> (3 - 1)%nat
  /\ (removeMachine 2 grown_form ≫= machinery) = Some [].
Proof. repeat split; try reflexivity. simpl. lia. Qed.

(** C2, amended. Removing an index inside a machinery list of [n] elements,
    none of them a hole, gives the list without the element at that
    position: the elements before it and the elements after it, in their
    order, [n - 1] in all; every other field of the record keeps its value
    and the fields keep their order. *)
Theorem removeMachine_in_range (prev : Obj) (ms : list JsVal) (i : Z) :
  get_prop "machinery" prev = JArr (dense ms) ->
  0 <= i < Z.of_nat (length ms) ->
  exists next,
    removeMachine i prev = Some next
    /\ machinery next
       = Some (dense (take (Z.to_nat i) ms ++ drop (S (Z.to_nat i)) ms))
    /\ length (take (Z.to_nat i) ms ++ drop (S (Z.to_nat i)) ms)
       = (length ms - 1)%nat
    /\ (forall k, k <> "machinery" -> get_prop k next = get_prop k prev)
    /\ map fst next = map fst prev.
Proof.
  intros Hm Hi.
  eexists. split; [by apply removeMachine_dense|].
  assert (Hn : (Z.to_nat i < length ms)%nat) by lia.
  split; [|split; [|split]].
  - rewrite machinery_set.
    pose proof (filter_index_delete ms 0 (Z.to_nat i) Hn) as Hf.
    rewrite Z.add_0_l, Z2Nat.id in Hf by lia.
    by rewrite Hf, delete_take_drop.
  - rewrite length_app, length_take, length_drop. lia.
  - intros k Hk. by apply get_set_prop_ne.
  - apply set_prop_keys, get_prop_has. by rewrite Hm.
Qed.

Lemma removeMachine_in_range_witness :
  exists next,
    removeMachine 0 two_machines = Some next
    /\ machinery next = Some (dense [JObj [("name", JStr "press")]]).
Proof.
  destruct (removeMachine_in_range two_machines
              [JObj [("name", JStr "lathe")]; JObj [("name", JStr "press")]] 0)
    as (next & Hr & Hm & _); [reflexivity | simpl; lia |].
  exists next. split; [exact Hr | exact Hm].
Defined.

(** C10, as stated, fails on a list with holes: on the list of length 3
    with two holes, removing index 7, or index -1, gives the list of the one
    element, not the list as it was. *)
Lemma removeMachine_out_of_range_holes :
  machinery grown_form = Some [None; None; Some (JObj [("name", JStr "mill")])]
  /\ (removeMachine 7 grown_form ≫= machinery)
     = Some [Some (JObj [("name", JStr "mill")])]
  /\ (removeMachine (-1) grown_form ≫= machinery)
     = Some [Some (JObj [("name", JStr "mill")])]
  /\ removeMachine 7 grown_form <> Some grown_form.
Proof. repeat split; try reflexivity. discriminate. Qed.

(** C10, amended. On a machinery list of [n] elements, none of them a hole,
    removing an index outside [0, n) leaves the list, and with it the whole
    record, as it was. *)
Theorem removeMachine_out_of_range (prev : Obj) (ms : list JsVal) (i : Z) :
  get_prop "machinery" prev = JArr (dense ms) ->
  i < 0 \/ Z.of_nat (length ms) <= i ->
  removeMachine i prev = Some prev
  /\ machinery prev = Some (dense ms).
Proof.
  intros Hm Hi. split; [|by unfold machinery; rewrite Hm].
  rewrite (removeMachine_dense _ _ _ Hm).
  rewrite filter_index_all.
  - rewrite <- Hm. f_equal. apply set_prop_same, get_prop_has. by rewrite Hm.
  - intros j Hj. apply negb_true_iff, Z.eqb_neq. lia.
Qed.

Lemma removeMachine_out_of_range_witness :
  removeMachine 2 two_machines = Some two_machines
  /\ removeMachine (-1) two_machines = Some two_machines.
Proof.
  split.
  - apply (removeMachine_out_of_range two_machines
             [JObj [("name", JStr "lathe")]; JObj [("name", JStr "press")]] 2);
      [reflexivity | right; simpl; lia].
  - apply (removeMachine_out_of_range two_machines
             [JObj [("name", JStr "lathe")]; JObj [("name", JStr "press")]] (-1));
      [reflexivity | left; lia].
Defined.

(** C3, as stated, fails: an index past the end is not refused, the
    assignment [newMachinery[index] = ...] makes the array grow.  On the
    empty list of a fresh form, index 2 gives a list of length 3 with two
    holes. *)
Lemma handleMachineChange_grows :
  machinery initialBusinessForm = Some []
  /\ exists next,
       handleMachineChange 2 "name" "mill" initialBusinessForm = Some next
       /\ machinery next = Some [None; None; Some (JObj [("name", JStr "mill")])]
       /\ length [None; None; Some (JObj [("name", JStr "mill")])]
          <> length (@nil (option JsVal)).
Proof.
  split; [reflexivity|].
  eexists. split; [reflexivity|]. split; [reflexivity|]. simpl. lia.
Qed.

(** [addMachine] puts a fresh machine after the elements of the list. *)
Lemma addMachine_appends (prev : Obj) (ms : list JsVal) :
  get_prop "machinery" prev = JArr (dense ms) ->
  addMachine prev
  = Some (set_prop "machinery" (JArr (dense (ms ++ [JObj initialMachineForm]))) prev).
Proof.
  intros Hm. unfold addMachine.
  by rewrite (machinery_or_empty _ _ Hm), spread_dense.
Qed.

(** The holes an update past the end leaves are not elements: a later
    removal, whatever its index, drops them. *)
Example removeMachine_after_growth :
  ((handleMachineChange 2 "name" "mill" initialBusinessForm
      ≫= (removeMachine 7)) ≫= machinery)
  = Some [Some (JObj [("name", JStr "mill")])].
Proof. reflexivity. Qed.

(** ** The handlers *)

Ltac run_handlers :=
  unfold import_pipeline, unawaited, reader_onload, reader_onerror,
    handleFileUpload, handleSubmit, start_read, parse_workbook, try_catch,
    js_fetch, response_json, navigate, console_error, console_log, emit,
    setImportError, readFormData, asks, throw, mbind, M_bind, mret, M_ret;
  simpl.

(** C9. The import never writes the form: whatever file is selected and
    whatever the reader, the parser and the network do, the record (and so
    its machinery list) is the one it was before. *)
Theorem import_keeps_formData (files : option (list File)) (env : Env) (w : World) :
  formData (import_pipeline files env w).2 = formData w
  /\ machinery (formData (import_pipeline files env w).2) = machinery (formData w).
Proof.
  assert (H : formData (import_pipeline files env w).2 = formData w).
  { run_handlers. repeat (case_match; simpl in *; simplify_eq); done. }
  split; [exact H | by rewrite H].
Qed.

Lemma requests_app (t t' : list Event) : requests (t ++ t') = (requests t ++ requests t')%list.
Proof. apply omap_app. Qed.

Lemma navigations_app (t t' : list Event) :
  navigations (t ++ t') = (navigations t ++ navigations t')%list.
Proof. apply omap_app. Qed.

Ltac project_trace :=
  repeat (progress (rewrite ?requests_app, ?navigations_app; simpl));
  rewrite ?app_nil_r.

(** C1. A first sheet with header row name, phone and the one data row
    of Joe's Shop gives the one row-object with these two keys, and the
    import sends exactly one request: a POST to the bulk endpoint whose body
    is the row wrapped under [businesses]. *)
Theorem import_joes_shop
  (env : Env) (w : World) (file : File) (rest : list File)
  (data : string) (workbook : Workbook) (sheetName : string) :
  readAsBinaryString env file = ReadLoads data ->
  XLSX_read env data = Some workbook ->
  head (SheetNames workbook) = Some sheetName ->
  lookup_sheet sheetName (Sheets workbook) = Some joes_sheet ->
  sheet_to_json (Some joes_sheet)
  = [JObj [("name", JStr "Joe's Shop"); ("phone", JStr "555-1234")]]
  /\ requests (trace (import_pipeline (Some (file :: rest)) env w).2)
     = (requests (trace w)
        ++ [ {| url := template (apiUrl env) ++ "/api/businesses/bulk";
                method := "POST";
                headers := [("Content-Type", "application/json")];
                body := Some joes_body |} ])%list.
Proof.
  intros Hread Hparse Hname Hsheet. split; [reflexivity|].
  run_handlers. rewrite Hread, Hparse, Hname. simpl. rewrite Hsheet.
  repeat (case_match; simpl in *; simplify_eq);
    project_trace; reflexivity.
Qed.

Lemma import_joes_shop_witness :
  requests (trace (import_pipeline (Some [sample_file])
                     (sample_env (ReadLoads "PK") (Some joes_workbook)
                        (Some {| ok := true; json := Some JNull |}))
                     mounted).2)
  = [ {| url := "http://localhost:5000/api/businesses/bulk";
         method := "POST";
         headers := [("Content-Type", "application/json")];
         body := Some joes_body |} ].
Proof.
  exact (proj2 (import_joes_shop
                  (sample_env (ReadLoads "PK") (Some joes_workbook)
                     (Some {| ok := true; json := Some JNull |}))
                  mounted sample_file [] "PK" joes_workbook "Sheet1"
                  eq_refl eq_refl eq_refl eq_refl)).
Defined.

(** What the import does when the reader hands over content the parser
    rejects: the exception leaves [reader.onload], which runs after the
    handler returned and outside its [try]; no message is set. *)
Lemma import_unreadable_workbook
  (env : Env) (w : World) (file : File) (rest : list File) (data : string) :
  readAsBinaryString env file = ReadLoads data ->
  XLSX_read env data = None ->
  (import_pipeline (Some (file :: rest)) env w).2
  = {| formData := formData w;
       importError := None;
       trace := trace w ++ [EUnhandledRejection WorkbookUnreadable] |}.
Proof.
  intros Hread Hparse. run_handlers. by rewrite Hread, Hparse.
Qed.

(** C4 does not hold of the code. On a fresh component, a file that reads
    well but whose content the parser rejects (a damaged workbook) leaves
    the error message empty: the only trace of the failure is a rejected
    promise. *)
Theorem import_unreadable_workbook_sets_no_message :
  let w := (import_pipeline (Some [sample_file])
              (sample_env (ReadLoads truncated_xlsx) None None) mounted).2 in
  importError w = None
  /\ importError w <> Some "Error processing file"
  /\ trace w = [EUnhandledRejection WorkbookUnreadable].
Proof.
  intros w. subst w.
  rewrite (import_unreadable_workbook _ mounted sample_file [] truncated_xlsx)
    by reflexivity.
  simpl. split; [reflexivity|]. split; [discriminate | reflexivity].
Qed.

(** C5. When the read of the selected file fails, the message is
    Error reading file, and the import has no effect besides: no request
    goes out. *)
Theorem import_read_failure
  (env : Env) (w : World) (file : File) (rest : list File) :
  readAsBinaryString env file = ReadFails ->
  importError (import_pipeline (Some (file :: rest)) env w).2
  = Some "Error reading file"
  /\ trace (import_pipeline (Some (file :: rest)) env w).2 = trace w
  /\ requests (trace (import_pipeline (Some (file :: rest)) env w).2)
     = requests (trace w).
Proof.
  intros Hread.
  assert (H : (import_pipeline (Some (file :: rest)) env w).2
              = {| formData := formData w;
                   importError := Some "Error reading file";
                   trace := trace w |}).
  { run_handlers. by rewrite Hread. }
  rewrite H. done.
Qed.

Lemma import_read_failure_witness :
  importError (import_pipeline (Some [sample_file])
                 (sample_env ReadFails None None) mounted).2
  = Some "Error reading file"
  /\ requests (trace (import_pipeline (Some [sample_file])
                        (sample_env ReadFails None None) mounted).2) = [].
Proof.
  destruct (import_read_failure (sample_env ReadFails None None) mounted
              sample_file [] eq_refl) as (Hmsg & _ & Hreq).
  split; [exact Hmsg | exact Hreq].
Defined.

(** C6. When the bulk endpoint answers with a status that is not a success,
    or with a success whose body does not parse, the message is the one
    asking to check the spreadsheet format, and the import navigates
    nowhere. *)
Theorem import_rejected
  (env : Env) (w : World) (file : File) (rest : list File)
  (data : string) (workbook : Workbook) (response : Response) :
  readAsBinaryString env file = ReadLoads data ->
  XLSX_read env data = Some workbook ->
  fetch env (bulk_request env workbook) = Some response ->
  ok response = false \/ json response = None ->
  importError (import_pipeline (Some (file :: rest)) env w).2
  = Some "Failed to import businesses. Please check your spreadsheet format."
  /\ navigations (trace (import_pipeline (Some (file :: rest)) env w).2)
     = navigations (trace w).
Proof.
  intros Hread Hparse Hfetch Hbad.
  unfold bulk_request in Hfetch.
  run_handlers. rewrite Hread, Hparse. simpl. rewrite Hfetch. simpl.
  destruct response as [ok_ json_]. simpl in *.
  destruct Hbad as [-> | ->]; simpl.
  - split; [reflexivity|]. by project_trace.
  - destruct ok_; simpl; (split; [reflexivity|]); by project_trace.
Qed.

Lemma import_rejected_witness :
  importError (import_pipeline (Some [sample_file])
                 (sample_env (ReadLoads "PK") (Some joes_workbook)
                    (Some {| ok := false; json := None |}))
                 mounted).2
  = Some "Failed to import businesses. Please check your spreadsheet format."
  /\ navigations (trace (import_pipeline (Some [sample_file])
                           (sample_env (ReadLoads "PK") (Some joes_workbook)
                              (Some {| ok := false; json := None |}))
                           mounted).2) = [].
Proof.
  apply (import_rejected
           (sample_env (ReadLoads "PK") (Some joes_workbook)
              (Some {| ok := false; json := None |}))
           mounted sample_file [] "PK" joes_workbook
           {| ok := false; json := None |});
    [reflexivity | reflexivity | reflexivity | left; reflexivity].
Defined.

(** A submit the server accepts, for any record: the default action is
    suppressed, the record goes out in one POST, the listing is shown; both
    state slots stay as they were. *)
Lemma handleSubmit_accepted (env : Env) (w : World) (response : Response) :
  fetch env (create_request env (formData w)) = Some response ->
  ok response = true ->
  (handleSubmit env w).2
  = {| formData := formData w;
       importError := importError w;
       trace := trace w ++ [EPreventDefault;
                            EFetch (create_request env (formData w));
                            ENavigate "/businesses"] |}.
Proof.
  intros Hfetch Hok. unfold create_request in Hfetch.
  run_handlers. rewrite Hfetch. simpl. rewrite Hok. simpl.
  by rewrite <- !app_assoc.
Qed.

(** C7. Submitting the record whose only field is the name Acme, the
    server accepting it: exactly one request goes out, a POST to the
    businesses endpoint with that record as JSON body, and then the listing
    route is shown; nothing is sent to the bulk endpoint. *)
Theorem submit_acme (env : Env) (w : World) (response : Response) :
  formData w = acme ->
  fetch env (create_request env acme) = Some response ->
  ok response = true ->
  trace (handleSubmit env w).2
  = (trace w
     ++ [EPreventDefault;
         EFetch {| url := template (apiUrl env) ++ "/api/businesses";
                   method := "POST";
                   headers := [("Content-Type", "application/json")];
                   body := Some acme_body |};
         ENavigate "/businesses"])%list
  /\ requests (trace (handleSubmit env w).2)
     = (requests (trace w)
        ++ [ {| url := template (apiUrl env) ++ "/api/businesses";
                method := "POST";
                headers := [("Content-Type", "application/json")];
                body := Some acme_body |} ])%list
  /\ navigations (trace (handleSubmit env w).2)
     = (navigations (trace w) ++ ["/businesses"])%list.
Proof.
  intros Hform Hfetch Hok.
  rewrite <- Hform in Hfetch.
  rewrite (handleSubmit_accepted env w response Hfetch Hok). simpl.
  rewrite Hform. split; [reflexivity|].
  split; project_trace; reflexivity.
Qed.

Lemma submit_acme_witness :
  trace (handleSubmit (sample_env ReadFails None (Some {| ok := true; json := None |}))
           {| formData := acme; importError := None; trace := [] |}).2
  = [EPreventDefault;
     EFetch {| url := "http://localhost:5000/api/businesses";
               method := "POST";
               headers := [("Content-Type", "application/json")];
               body := Some acme_body |};
     ENavigate "/businesses"].
Proof.
  exact (proj1 (submit_acme
                  (sample_env ReadFails None (Some {| ok := true; json := None |}))
                  {| formData := acme; importError := None; trace := [] |}
                  {| ok := true; json := None |} eq_refl eq_refl eq_refl)).
Defined.

(** C8. A submit that fails, by a status that is not a success or by the
    network, is only logged: the error message keeps the value it had, the
    record too, and the listing is not shown. *)
Theorem submit_failure (env : Env) (w : World) :
  fetch env (create_request env (formData w)) = None
  \/ (exists response,
        fetch env (create_request env (formData w)) = Some response
        /\ ok response = false) ->
  importError (handleSubmit env w).2 = importError w
  /\ formData (handleSubmit env w).2 = formData w
  /\ navigations (trace (handleSubmit env w).2) = navigations (trace w)
  /\ exists error,
       trace (handleSubmit env w).2
       = (trace w ++ [EPreventDefault;
                      EFetch (create_request env (formData w));
                      EConsoleError "Error creating business:" error])%list.
Proof.
  unfold create_request.
  intros [Hfetch | (response & Hfetch & Hok)];
    run_handlers; rewrite Hfetch; simpl; rewrite ?Hok; simpl;
    (split; [reflexivity|]); (split; [reflexivity|]);
    (split; [by project_trace|]);
    eexists; by rewrite <- !app_assoc.
Qed.

Lemma submit_failure_witness :
  importError (handleSubmit
                 (sample_env ReadFails None (Some {| ok := false; json := None |}))
                 mounted).2 = None
  /\ importError (handleSubmit (sample_env ReadFails None None) mounted).2 = None.
Proof.
  split.
  - apply (submit_failure
             (sample_env ReadFails None (Some {| ok := false; json := None |}))
             mounted).
    right. eexists. split; reflexivity.
  - apply (submit_failure (sample_env ReadFails None None) mounted).
    left. reflexivity.
Defined.

(** ** Field edits *)

Lemma set_prop_keys_app (k : string) (v : JsVal) (o : Obj) :
  map fst (set_prop k v o)
  = (map fst o ++ (if has_prop k o then [] else [k]))%list.
Proof.
  induction o as [|[k' v'] o IH]; simpl; [done|].
  destruct (String.eqb k k') eqn:E; simpl.
  - by rewrite app_nil_r.
  - by rewrite IH.
Qed.

Lemma set_prop_set_prop (k : string) (v1 v2 : JsVal) (o : Obj) :
  set_prop k v2 (set_prop k v1 o) = set_prop k v2 o.
Proof.
  induction o as [|[k' v'] o IH]; simpl.
  - by rewrite String.eqb_refl.
  - destruct (String.eqb k k') eqn:E; simpl; rewrite E; [done|]. by rewrite IH.
Qed.


Lemma set_prop_comm (k1 k2 : string) (v1 v2 : JsVal) (o : Obj) :
  k1 <> k2 -> has_prop k1 o = true -> has_prop k2 o = true ->
  set_prop k1 v1 (set_prop k2 v2 o) = set_prop k2 v2 (set_prop k1 v1 o).
Proof.
  intros Hne. induction o as [|[k v] o IH]; simpl; [done|].
  destruct (String.eqb k1 k) eqn:E1, (String.eqb k2 k) eqn:E2; simpl;
    rewrite ?E1, ?E2; intros H1 H2.
  - apply String.eqb_eq in E1, E2. congruence.
  - done.
  - done.
  - by rewrite IH.
Qed.

(** X1. After a text input changed, the field of that name reads the typed
    value and every other field reads what it read before.  When the form
    had the field, no field is added or moved; when it had not, and the name
    is not written in digits only, the field is added after all others. *)
Theorem handleInputChange_reads_back (name value : string) (prev : Obj) :
  get_prop name (handleInputChange name value prev) = JStr value
  /\ (forall k, k <> name ->
        get_prop k (handleInputChange name value prev) = get_prop k prev)
  /\ (has_prop name prev = true ->
        map fst (handleInputChange name value prev) = map fst prev)
  /\ (has_prop name prev = false -> integer_like name = false ->
        handleInputChange name value prev = (prev ++ [(name, JStr value)])%list).
Proof.
  unfold handleInputChange. split; [apply get_set_prop_eq|].
  split; [intros k Hk; by apply get_set_prop_ne|].
  split; [apply set_prop_keys|].
  intros Hnew _. induction prev as [|[k' v'] prev IH]; simpl in *; [done|].
  destruct (String.eqb name k'); [done|]. by rewrite IH.
Qed.

Lemma handleInputChange_reads_back_witness :
  map fst (handleInputChange "name" "Acme" initialBusinessForm)
  = map fst initialBusinessForm
  /\ handleInputChange "fax" "555-0000" acme
     = [("name", JStr "Acme"); ("fax", JStr "555-0000")].
Proof.
  split.
  - apply (handleInputChange_reads_back "name" "Acme" initialBusinessForm).
    reflexivity.
  - apply (handleInputChange_reads_back "fax" "555-0000" acme); reflexivity.
Defined.

(** X2. After a switch changed, its flag reads the new state and every other
    field, the machinery list among them, reads what it read before; on a
    form that has the flag no field is added or moved. *)
Theorem handleSwitchChange_reads_back (name : string) (checked : bool) (prev : Obj) :
  name <> "machinery" ->
  has_prop name prev = true ->
  get_prop name (handleSwitchChange name checked prev) = JBool checked
  /\ machinery (handleSwitchChange name checked prev) = machinery prev
  /\ (forall k, k <> name ->
        get_prop k (handleSwitchChange name checked prev) = get_prop k prev)
  /\ map fst (handleSwitchChange name checked prev) = map fst prev.
Proof.
  intros Hne Hhas. unfold handleSwitchChange.
  split; [apply get_set_prop_eq|].
  split; [unfold machinery; by rewrite get_set_prop_ne|].
  split; [intros k Hk; by apply get_set_prop_ne | by apply set_prop_keys].
Qed.

Lemma handleSwitchChange_reads_back_witness :
  get_prop "isOpen" (handleSwitchChange "isOpen" false initialBusinessForm)
  = JBool false
  /\ machinery (handleSwitchChange "isOpen" false initialBusinessForm) = Some [].
Proof.
  destruct (handleSwitchChange_reads_back "isOpen" false initialBusinessForm)
    as (Hget & Hm & _); [discriminate | reflexivity |].
  split; [exact Hget | exact Hm].
Defined.

(** X3. Typing twice into the same input leaves the form the second value
    alone would have given: the last write wins and the first leaves no
    trace. *)
Theorem handleInputChange_last_wins (name v1 v2 : string) (prev : Obj) :
  handleInputChange name v2 (handleInputChange name v1 prev)
  = handleInputChange name v2 prev.
Proof. apply set_prop_set_prop. Qed.

(** X4. Edits of two different fields of the form can be applied in either
    order: a text input and a switch, or two text inputs, give the same
    form both ways. *)
Theorem edits_commute (e1 e2 : FieldEdit) (prev : Obj) :
  edit_name e1 <> edit_name e2 ->
  has_prop (edit_name e1) prev = true ->
  has_prop (edit_name e2) prev = true ->
  apply_edit e1 (apply_edit e2 prev) = apply_edit e2 (apply_edit e1 prev).
Proof.
  intros Hne H1 H2.
  destruct e1, e2; simpl in *;
    unfold handleInputChange, handleSwitchChange; by apply set_prop_comm.
Qed.

Lemma edits_commute_witness :
  apply_edit (EditInput "name" "Acme") (apply_edit (EditSwitch "isOpen" false) initialBusinessForm)
  = apply_edit (EditSwitch "isOpen" false) (apply_edit (EditInput "name" "Acme") initialBusinessForm).
Proof.
  apply (edits_commute (EditInput "name" "Acme") (EditSwitch "isOpen" false)
           initialBusinessForm); [discriminate | reflexivity | reflexivity].
Defined.



(** ** More on the machinery list *)

Lemma is_array_index_spec (i : Z) :
  is_array_index i = true <-> 0 <= i < 2 ^ 32 - 1.
Proof.
  unfold is_array_index. rewrite andb_true_iff, Z.leb_le, Z.ltb_lt. tauto.
Qed.

(** What [handleMachineChange] computes on a list of elements, whatever the
    index. *)
Lemma handleMachineChange_dense (prev : Obj) (ms : list JsVal) (i : Z)
    (name value : string) :
  get_prop "machinery" prev = JArr (dense ms) ->
  handleMachineChange i name value prev
  = Some (set_prop "machinery"
            (JArr (array_set (dense ms) i
                     (JObj (set_prop name (JStr value)
                              (spread_props (array_get (dense ms) i))))))
            prev).
Proof.
  intros Hm. unfold handleMachineChange.
  by rewrite (machinery_or_empty _ _ Hm), spread_dense.
Qed.

Lemma handleMachineChange_dense_in_range (prev : Obj) (ms : list JsVal) (i : Z)
    (name value : string) (m : JsVal) :
  get_prop "machinery" prev = JArr (dense ms) ->
  is_array_index i = true ->
  ms !! Z.to_nat i = Some m ->
  handleMachineChange i name value prev
  = Some (set_prop "machinery"
            (JArr (dense (<[Z.to_nat i := JObj (set_prop name (JStr value) (spread_props m))]> ms)))
            prev).
Proof.
  intros Hm Hidx Hlook.
  rewrite (handleMachineChange_dense _ _ _ _ _ Hm).
  unfold array_get, array_set. rewrite Hidx.
  assert (Hd : dense ms !! Z.to_nat i = Some (Some m)).
  { unfold dense. by rewrite list_lookup_fmap, Hlook. }
  rewrite Hd.
  rewrite (proj2 (Nat.ltb_lt _ _))
    by (rewrite length_dense; by eapply lookup_lt_Some).
  unfold dense. by rewrite list_fmap_insert.
Qed.

(** X6. Adding a machine to a list of [n] machines gives [n + 1]: the ones
    that were there, at their positions, and after them a machine whose five
    fields are empty; the other fields of the record are not touched. *)
Theorem addMachine_grows_by_one (prev : Obj) (ms : list JsVal) :
  get_prop "machinery" prev = JArr (dense ms) ->
  exists next,
    addMachine prev = Some next
    /\ machinery next = Some (dense (ms ++ [JObj initialMachineForm]))
    /\ length (ms ++ [JObj initialMachineForm]) = S (length ms)
    /\ (forall j m, ms !! j = Some m ->
          (ms ++ [JObj initialMachineForm])%list !! j = Some m)
    /\ (ms ++ [JObj initialMachineForm])%list !! length ms
       = Some (JObj initialMachineForm)
    /\ (forall k, k <> "machinery" -> get_prop k next = get_prop k prev).
Proof.
  intros Hm. eexists. split; [by apply addMachine_appends|].
  split; [apply machinery_set|].
  split; [rewrite length_app; simpl; lia|].
  split; [intros j m Hj; by apply lookup_app_l_Some|].
  split; [by rewrite list_lookup_middle|].
  intros k Hk. by apply get_set_prop_ne.
Qed.

Lemma addMachine_grows_by_one_witness :
  exists next,
    addMachine initialBusinessForm = Some next
    /\ machinery next = Some [Some (JObj initialMachineForm)].
Proof.
  destruct (addMachine_grows_by_one initialBusinessForm []) as (next & Ha & Hm & _);
    [reflexivity|].
  exists next. split; [exact Ha | exact Hm].
Defined.

(** X7. A record whose [machinery] is missing (or otherwise falsy) is
    treated as one with the empty list: adding gives the list of one fresh
    machine, removing gives the empty list, and a change at index 0 gives
    one machine that has the changed field only. *)
Theorem missing_machinery_is_empty (prev : Obj) (i : Z) (name value : string) :
  truthy (get_prop "machinery" prev) = false ->
  (addMachine prev ≫= machinery) = Some [Some (JObj initialMachineForm)]
  /\ (removeMachine i prev ≫= machinery) = Some []
  /\ (handleMachineChange 0 name value prev ≫= machinery)
     = Some [Some (JObj [(name, JStr value)])].
Proof.
  intros Hfalsy.
  unfold addMachine, removeMachine, handleMachineChange, js_or.
  rewrite Hfalsy. simpl.
  rewrite !machinery_set. done.
Qed.

Lemma missing_machinery_is_empty_witness :
  (addMachine acme ≫= machinery) = Some [Some (JObj initialMachineForm)]
  /\ (removeMachine 0 acme ≫= machinery) = Some []
  /\ (handleMachineChange 0 "name" "mill" acme ≫= machinery)
     = Some [Some (JObj [("name", JStr "mill")])].
Proof.
  apply (missing_machinery_is_empty acme 0 "name" "mill"). reflexivity.
Defined.

(** X8. Adding a machine and then removing the last position gives back the
    record as it was. *)
Theorem add_then_remove_last (prev : Obj) (ms : list JsVal) :
  get_prop "machinery" prev = JArr (dense ms) ->
  (addMachine prev ≫= removeMachine (Z.of_nat (length ms))) = Some prev.
Proof.
  intros Hm. rewrite (addMachine_appends _ _ Hm). simpl.
  rewrite (removeMachine_dense _ (ms ++ [JObj initialMachineForm]))
    by apply get_set_prop_eq.
  pose proof (filter_index_delete (ms ++ [JObj initialMachineForm]) 0 (length ms))
    as Hf.
  rewrite Z.add_0_l in Hf. rewrite Hf by (rewrite length_app; simpl; lia).
  rewrite set_prop_set_prop.
  replace (delete (length ms) (ms ++ [JObj initialMachineForm])%list) with ms.
  - rewrite <- Hm. f_equal. apply set_prop_same, get_prop_has. by rewrite Hm.
  - clear. induction ms as [|m ms IH]; simpl; [done|]. by f_equal.
Qed.

Lemma add_then_remove_last_witness :
  (addMachine two_machines ≫= removeMachine 2) = Some two_machines.
Proof.
  apply (add_then_remove_last two_machines
           [JObj [("name", JStr "lathe")]; JObj [("name", JStr "press")]]).
  reflexivity.
Defined.

(** X9. A change at an index at or past the end of a list of [n] machines
    makes the list [index + 1] long: the machines that were there, then
    [index - n] holes, then one machine that has the changed field and no
    other.  At [index = n] this appends without a hole. *)
Theorem handleMachineChange_past_end
  (prev : Obj) (ms : list JsVal) (i : Z) (name value : string) :
  get_prop "machinery" prev = JArr (dense ms) ->
  Z.of_nat (length ms) <= i < 2 ^ 32 - 1 ->
  exists next,
    handleMachineChange i name value prev = Some next
    /\ machinery next
       = Some (dense ms ++ replicate (Z.to_nat i - length ms)%nat None
                 ++ [Some (JObj [(name, JStr value)])])%list
    /\ length (dense ms ++ replicate (Z.to_nat i - length ms)%nat None
                 ++ [Some (JObj [(name, JStr value)])])%list
       = S (Z.to_nat i)
    /\ (forall k, k <> "machinery" -> get_prop k next = get_prop k prev).
Proof.
  intros Hm Hi.
  assert (Hidx : is_array_index i = true) by (apply is_array_index_spec; lia).
  rewrite (handleMachineChange_dense _ _ _ _ _ Hm).
  unfold array_get, array_set. rewrite Hidx.
  rewrite (lookup_ge_None_2 (dense ms)) by (rewrite length_dense; lia).
  rewrite (proj2 (Nat.ltb_ge _ _)) by (rewrite length_dense; lia).
  rewrite length_dense. simpl.
  eexists. split; [reflexivity|].
  split; [apply machinery_set|].
  split.
  - rewrite !length_app, length_dense, length_replicate. simpl. lia.
  - intros k Hk. by apply get_set_prop_ne.
Qed.

Lemma handleMachineChange_past_end_witness :
  exists next,
    handleMachineChange 3 "name" "mill" two_machines = Some next
    /\ machinery next
       = Some [Some (JObj [("name", JStr "lathe")]);
               Some (JObj [("name", JStr "press")]);
               None;
               Some (JObj [("name", JStr "mill")])].
Proof.
  destruct (handleMachineChange_past_end two_machines
              [JObj [("name", JStr "lathe")]; JObj [("name", JStr "press")]]
              3 "name" "mill")
    as (next & Hr & Hm & _); [reflexivity | simpl; lia |].
  exists next. split; [exact Hr | exact Hm].
Defined.

(** The copy [[...a]] reads as [a] does: a hole reads [undefined] before and
    after. *)
Lemma array_get_copy (a : Slots) (i : Z) :
  array_get (dense (map (fun s => default JUndefined s) a)) i = array_get a i.
Proof.
  unfold array_get, dense. destruct (is_array_index i); [|done].
  rewrite !list_lookup_fmap.
  by destruct (a !! Z.to_nat i) as [[v|]|].
Qed.

Lemma array_get_set (a : Slots) (i : Z) (v : JsVal) :
  is_array_index i = true -> array_get (array_set a i v) i = v.
Proof.
  intros Hidx. unfold array_get, array_set. rewrite Hidx.
  destruct (Z.to_nat i <? length a)%nat eqn:E.
  - apply Nat.ltb_lt in E. by rewrite list_lookup_insert_eq.
  - apply Nat.ltb_ge in E.
    rewrite lookup_app_r by done.
    rewrite lookup_app_r by (rewrite length_replicate; lia).
    rewrite length_replicate.
    by replace (Z.to_nat i - length a - (Z.to_nat i - length a))%nat with 0%nat by lia.
Qed.

Lemma length_array_set (a : Slots) (i : Z) (v : JsVal) :
  is_array_index i = true ->
  length (array_set a i v) = (length a `max` S (Z.to_nat i))%nat.
Proof.
  intros Hidx. unfold array_set. rewrite Hidx.
  destruct (Z.to_nat i <? length a)%nat eqn:E.
  - apply Nat.ltb_lt in E. rewrite length_insert. lia.
  - apply Nat.ltb_ge in E.
    rewrite !length_app, length_replicate. simpl. lia.
Qed.

(** The copy [[...a]], slot by slot: an element stays, a hole becomes an
    explicit [undefined]. *)
Lemma lookup_copy (a : Slots) (j : nat) :
  dense (map (fun s => default JUndefined s) a) !! j
  = (fun slot => Some (default JUndefined slot)) <$> a !! j.
Proof.
  unfold dense. rewrite !list_lookup_fmap. by destruct (a !! j).
Qed.

Lemma copy_dense (ms : list JsVal) :
  dense (map (fun s => default JUndefined s) (dense ms)) = dense ms.
Proof.
  unfold dense. induction ms as [|m ms IH]; simpl; [done|]. by f_equal.
Qed.

(** X10. A change whose index is a negative integer, or an integer too
    large to be an array index, adds no element and changes none: whatever
    the array in [machinery] (holes included), the list keeps its length and
    every position reads what it read before; a list of machines stays the
    same list; the other fields of the record are not touched.  (The value
    goes to a named property of the array, which is no element.) *)
Theorem handleMachineChange_no_index
  (prev : Obj) (a : Slots) (i : Z) (name value : string) :
  machinery prev = Some a ->
  i < 0 \/ 2 ^ 32 - 1 <= i ->
  exists next b,
    handleMachineChange i name value prev = Some next
    /\ machinery next = Some b
    /\ length b = length a
    /\ (forall j, array_get b j = array_get a j)
    /\ (forall ms, a = dense ms -> b = dense ms)
    /\ (forall k, k <> "machinery" -> get_prop k next = get_prop k prev).
Proof.
  unfold machinery. intros Hm Hi.
  destruct (get_prop "machinery" prev) as [| | | | |a'|] eqn:Hg; try discriminate.
  injection Hm as ->.
  assert (Hidx : is_array_index i = false).
  { destruct (is_array_index i) eqn:E; [|done].
    apply is_array_index_spec in E. lia. }
  unfold handleMachineChange. rewrite Hg. simpl.
  unfold array_set. rewrite Hidx.
  eexists _, _. split; [reflexivity|].
  rewrite get_set_prop_eq. split; [reflexivity|].
  split; [unfold dense; by rewrite !length_map|].
  split; [intros j; apply array_get_copy|].
  split; [intros ms ->; apply copy_dense|].
  intros k Hk. by apply get_set_prop_ne.
Qed.

Lemma handleMachineChange_no_index_witness :
  exists next,
    handleMachineChange (-1) "name" "lathe" grown_form = Some next
    /\ (machinery next ≫= fun b => Some (length b)) = Some 3%nat
    /\ (handleMachineChange (-1) "name" "mill" two_machines ≫= machinery)
       = machinery two_machines.
Proof.
  destruct (handleMachineChange_no_index grown_form
              [None; None; Some (JObj [("name", JStr "mill")])]
              (-1) "name" "lathe" eq_refl)
    as (next & b & Hr & Hm & Hlen & _); [left; lia|].
  exists next. split; [exact Hr|]. split; [by rewrite Hm; simpl; rewrite Hlen|].
  reflexivity.
Defined.

(** C3, amended. Whatever the array in [machinery] (holes included, no
    longer than a JavaScript array can be), a change keeps the length of
    the list when its index is inside the list or is no array index at all
    (negative, or too large).  Inside the list it overwrites one field of
    what the position holds: the position gets an object whose changed field
    reads the new value and whose other fields read what they read there
    before.  Every other position keeps its element, a hole becoming an
    explicit [undefined]; every other field of the record stays as it
    was. *)
Theorem handleMachineChange_keeps_length
  (prev : Obj) (a : Slots) (i : Z) (name value : string) :
  machinery prev = Some a ->
  Z.of_nat (length a) <= 2 ^ 32 - 1 ->
  0 <= i < Z.of_nat (length a) \/ i < 0 \/ 2 ^ 32 - 1 <= i ->
  exists next b,
    handleMachineChange i name value prev = Some next
    /\ machinery next = Some b
    /\ length b = length a
    /\ (forall j : nat, Z.of_nat j <> i ->
          b !! j = (fun slot => Some (default JUndefined slot)) <$> a !! j)
    /\ (0 <= i < Z.of_nat (length a) ->
          exists o,
            b !! Z.to_nat i = Some (Some (JObj o))
            /\ get_prop name o = JStr value
            /\ (forall k, k <> name ->
                  get_prop k o = get_prop k (spread_props (array_get a i))))
    /\ (forall k, k <> "machinery" -> get_prop k next = get_prop k prev).
Proof.
  unfold machinery. intros Hm Hmax Hi.
  destruct (get_prop "machinery" prev) as [| | | | |a'|] eqn:Hg; try discriminate.
  injection Hm as ->.
  unfold handleMachineChange. rewrite Hg. simpl.
  rewrite array_get_copy.
  assert (Hlen : length (dense (map (fun s => default JUndefined s) a)) = length a).
  { unfold dense. by rewrite !length_map. }
  unfold array_set.
  destruct Hi as [Hin | Hout].
  - rewrite (proj2 (is_array_index_spec i)) by lia.
    rewrite (proj2 (Nat.ltb_lt _ _)) by (rewrite Hlen; lia).
    eexists _, _. split; [reflexivity|].
    rewrite get_set_prop_eq. split; [reflexivity|].
    split; [by rewrite length_insert|].
    split; [|split].
    + intros j Hj. rewrite list_lookup_insert_ne by lia. apply lookup_copy.
    + intros _. eexists. split; [|split].
      * apply list_lookup_insert_eq. rewrite Hlen. lia.
      * apply get_set_prop_eq.
      * intros k Hk. by apply get_set_prop_ne.
    + intros k Hk. by apply get_set_prop_ne.
  - assert (Hidx : is_array_index i = false).
    { destruct (is_array_index i) eqn:E; [|done].
      apply is_array_index_spec in E. lia. }
    rewrite Hidx.
    eexists _, _. split; [reflexivity|].
    rewrite get_set_prop_eq. split; [reflexivity|].
    split; [exact Hlen|].
    split; [intros j _; apply lookup_copy|].
    split; [intros Hin; lia|].
    intros k Hk. by apply get_set_prop_ne.
Qed.

Lemma handleMachineChange_keeps_length_witness :
  exists next b,
    handleMachineChange 2 "description" "5-axis" grown_form = Some next
    /\ machinery next = Some b
    /\ length b = 3%nat
    /\ b !! 0%nat = Some (Some JUndefined)
    /\ exists o, b !! 2%nat = Some (Some (JObj o))
                 /\ get_prop "description" o = JStr "5-axis"
                 /\ get_prop "name" o = JStr "mill".
Proof.
  destruct (handleMachineChange_keeps_length grown_form
              [None; None; Some (JObj [("name", JStr "mill")])]
              2 "description" "5-axis" eq_refl)
    as (next & b & Hr & Hm & Hlen & Hother & Hat & _);
    [simpl; lia | left; simpl; lia |].
  destruct Hat as (o & Ho & Hnew & Hold); [simpl; lia|].
  exists next, b. split; [exact Hr|]. split; [exact Hm|]. split; [exact Hlen|].
  split; [by rewrite (Hother 0%nat)|].
  exists o. split; [exact Ho|]. split; [exact Hnew|].
  by rewrite Hold.
Defined.

Lemma filter_index_length (a : Slots) : forall (base : Z) (p : Z -> bool),
  (length (filter_index_from base p a) <= length a)%nat.
Proof.
  induction a as [|[v|] a IH]; intros base p; simpl; [lia| |].
  - destruct (p base); simpl; specialize (IH (base + 1) p); lia.
  - specialize (IH (base + 1) p). lia.
Qed.

Lemma filter_index_no_holes (a : Slots) : forall (base : Z) (p : Z -> bool),
  Forall is_Some (filter_index_from base p a).
Proof.
  induction a as [|[v|] a IH]; intros base p; simpl; [constructor| |apply IH].
  destruct (p base); [constructor; [by eexists | apply IH] | apply IH].
Qed.

(** X11. Whatever the array in [machinery] (holes included) and whatever the
    index, a removal gives a list that is no longer than before and has no
    hole. *)
Theorem removeMachine_never_grows (prev : Obj) (a : Slots) (i : Z) :
  machinery prev = Some a ->
  exists next b,
    removeMachine i prev = Some next
    /\ machinery next = Some b
    /\ (length b <= length a)%nat
    /\ Forall is_Some b.
Proof.
  unfold machinery. intros Hm.
  destruct (get_prop "machinery" prev) as [| | | | |a'|] eqn:Hg; try discriminate.
  injection Hm as ->.
  unfold removeMachine. rewrite Hg. simpl.
  eexists _, _. split; [reflexivity|].
  rewrite get_set_prop_eq. split; [reflexivity|].
  split; [apply filter_index_length | apply filter_index_no_holes].
Qed.

Lemma removeMachine_never_grows_witness :
  exists next b,
    removeMachine 7 [("machinery", JArr [None; Some (JStr "mill"); None])] = Some next
    /\ machinery next = Some b
    /\ (length b <= 3)%nat.
Proof.
  destruct (removeMachine_never_grows
              [("machinery", JArr [None; Some (JStr "mill"); None])]
              [None; Some (JStr "mill"); None] 7 eq_refl)
    as (next & b & Hr & Hm & Hlen & _).
  exists next, b. split; [exact Hr|]. split; [exact Hm | exact Hlen].
Defined.

(** X12. Whatever the array in [machinery] (holes included), after a change
    at an array index the position of that index holds an object whose
    changed field reads the new value and whose other fields read what the
    element there read before; the list is as long as before, or just long
    enough to have that position. *)
Theorem handleMachineChange_reads_back
  (prev : Obj) (a : Slots) (i : Z) (name value : string) :
  machinery prev = Some a ->
  0 <= i < 2 ^ 32 - 1 ->
  exists next b o,
    handleMachineChange i name value prev = Some next
    /\ machinery next = Some b
    /\ array_get b i = JObj o
    /\ get_prop name o = JStr value
    /\ (forall k, k <> name ->
          get_prop k o = get_prop k (spread_props (array_get a i)))
    /\ length b = (length a `max` S (Z.to_nat i))%nat.
Proof.
  unfold machinery. intros Hm Hi.
  destruct (get_prop "machinery" prev) as [| | | | |a'|] eqn:Hg; try discriminate.
  injection Hm as ->.
  assert (Hidx : is_array_index i = true) by (apply is_array_index_spec; lia).
  unfold handleMachineChange. rewrite Hg. simpl.
  rewrite array_get_copy.
  eexists _, _, _. split; [reflexivity|].
  rewrite get_set_prop_eq. split; [reflexivity|].
  split; [by apply array_get_set|].
  split; [apply get_set_prop_eq|].
  split; [intros k Hk; by apply get_set_prop_ne|].
  rewrite length_array_set by done.
  unfold dense. by rewrite !length_map.
Qed.

Lemma handleMachineChange_reads_back_witness :
  exists next b o,
    handleMachineChange 1 "description" "5-axis" two_machines = Some next
    /\ machinery next = Some b
    /\ array_get b 1 = JObj o
    /\ get_prop "description" o = JStr "5-axis"
    /\ get_prop "name" o = JStr "press".
Proof.
  destruct (handleMachineChange_reads_back two_machines
              (dense [JObj [("name", JStr "lathe")]; JObj [("name", JStr "press")]])
              1 "description" "5-axis" eq_refl)
    as (next & b & o & Hr & Hm & Hget & Hnew & Hold & _); [lia|].
  exists next, b, o. repeat (split; [assumption|]).
  rewrite Hold by discriminate. reflexivity.
Defined.

(** One updater on a list of elements does what its replay on the plain
    list does. *)
Lemma apply_op_dense (op : MachineOp) (prev : Obj) (ms : list JsVal) :
  get_prop "machinery" prev = JArr (dense ms) ->
  op_in_range op ms = true ->
  apply_op op prev = Some (set_prop "machinery" (JArr (dense (list_op op ms))) prev).
Proof.
  intros Hm Hok. destruct op as [|i|i name value]; simpl in *.
  - by apply addMachine_appends.
  - rewrite (removeMachine_dense _ _ _ Hm). do 3 f_equal.
    destruct ((0 <=? i) && (i <? Z.of_nat (length ms))) eqn:E.
    + apply andb_true_iff in E as [E1%Z.leb_le E2%Z.ltb_lt].
      pose proof (filter_index_delete ms 0 (Z.to_nat i)) as Hf.
      rewrite Z.add_0_l, Z2Nat.id in Hf by lia. apply Hf. lia.
    + apply filter_index_all. intros j Hj.
      apply negb_true_iff, Z.eqb_neq. intros ->.
      apply andb_false_iff in E as [E%Z.leb_gt | E%Z.ltb_ge]; lia.
  - apply andb_true_iff in Hok as [Hr Hidx].
    apply andb_true_iff in Hr as [E1%Z.leb_le E2%Z.ltb_lt].
    destruct (ms !! Z.to_nat i) as [m|] eqn:Hlook.
    + by apply handleMachineChange_dense_in_range.
    + apply lookup_ge_None in Hlook. lia.
Qed.

(** X13. A sequence of additions, removals and changes, each change at an
    index that names an element at its turn, leaves in [machinery] exactly
    the list the same operations give when replayed on a plain list, and
    leaves every other field of the record as it was. *)
Theorem machinery_ops_replay (ops : list MachineOp) (prev : Obj) (ms : list JsVal) :
  get_prop "machinery" prev = JArr (dense ms) ->
  ops_in_range ops ms = true ->
  exists next,
    apply_ops ops prev = Some next
    /\ machinery next = Some (dense (list_ops ops ms))
    /\ (forall k, k <> "machinery" -> get_prop k next = get_prop k prev).
Proof.
  revert prev ms.
  induction ops as [|op ops IH]; intros prev ms Hm Hok; simpl in *.
  - exists prev. split; [done|]. split; [by unfold machinery; rewrite Hm | done].
  - apply andb_true_iff in Hok as [Hop Hrest].
    rewrite (apply_op_dense op prev ms Hm Hop).
    destruct (IH (set_prop "machinery" (JArr (dense (list_op op ms))) prev)
                (list_op op ms)) as (next & Hrun & Hmach & Hother);
      [apply get_set_prop_eq | exact Hrest |].
    exists next. split; [exact Hrun|]. split; [exact Hmach|].
    intros k Hk. rewrite Hother by done. by apply get_set_prop_ne.
Qed.

Lemma machinery_ops_replay_witness :
  exists next,
    apply_ops [OpAdd; OpChange 0 "name" "lathe"; OpAdd; OpRemove 0; OpRemove 5]
      initialBusinessForm = Some next
    /\ machinery next = Some [Some (JObj initialMachineForm)].
Proof.
  destruct (machinery_ops_replay
              [OpAdd; OpChange 0 "name" "lathe"; OpAdd; OpRemove 0; OpRemove 5]
              initialBusinessForm []) as (next & Hr & Hm & _);
    [reflexivity | reflexivity |].
  exists next. split; [exact Hr | exact Hm].
Defined.

(** ** More on the import *)

(** The import of a file that reads and parses, by what the server does. *)
Lemma import_parsed
  (env : Env) (w : World) (file : File) (rest : list File)
  (data : string) (workbook : Workbook) :
  readAsBinaryString env file = ReadLoads data ->
  XLSX_read env data = Some workbook ->
  (import_pipeline (Some (file :: rest)) env w).2
  = let failed error :=
      {| formData := formData w;
         importError :=
           Some "Failed to import businesses. Please check your spreadsheet format.";
         trace := trace w ++ [EFetch (bulk_request env workbook);
                              EConsoleError "Import error:" error] |} in
    match fetch env (bulk_request env workbook) with
    | None => failed FetchRejected
    | Some response =>
        if ok response
        then match json response with
             | Some result =>
                 {| formData := formData w;
                    importError := None;
                    trace := trace w ++ [EFetch (bulk_request env workbook);
                                         EConsoleLog "Import successful:" result;
                                         ENavigate "/businesses"] |}
             | None => failed BodyNotJson
             end
        else failed (ErrorMsg "Failed to import businesses")
    end.
Proof.
  intros Hread Hparse. unfold bulk_request.
  run_handlers. rewrite Hread, Hparse. simpl.
  destruct (fetch env _) as [[ok_ json_]|]; simpl.
  - destruct ok_, json_; simpl; by rewrite <- ?app_assoc.
  - by rewrite <- ?app_assoc.
Qed.

(** X14. A change event that carries no file only clears the message: no
    read is started, nothing is sent, nothing is logged. *)
Theorem import_without_file (files : option (list File)) (env : Env) (w : World) :
  files = None \/ files = Some [] ->
  (import_pipeline files env w).2
  = {| formData := formData w; importError := None; trace := trace w |}.
Proof. intros [-> | ->]; reflexivity. Qed.

Lemma import_without_file_witness :
  (import_pipeline (Some []) (sample_env ReadFails None None)
     {| formData := acme; importError := Some "Error reading file"; trace := [] |}).2
  = {| formData := acme; importError := None; trace := [] |}.
Proof.
  apply (import_without_file (Some []) (sample_env ReadFails None None)
           {| formData := acme; importError := Some "Error reading file"; trace := [] |}).
  right. reflexivity.
Defined.

(** X15. After an import, whatever happened and whatever message was there
    before, the message is empty or one of the three the import sets, and
    the alert is rendered exactly when it is one of the three. *)
Theorem import_message_is_known (files : option (list File)) (env : Env) (w : World) :
  match importError (import_pipeline files env w).2 with
  | None => alert_shown (import_pipeline files env w).2 = false
  | Some message =>
      message ∈ import_messages
      /\ alert_shown (import_pipeline files env w).2 = true
  end.
Proof.
  unfold alert_shown, import_messages.
  run_handlers.
  repeat (case_match; simpl in *; simplify_eq); try done;
    (split; [by repeat constructor | reflexivity]).
Qed.

(** X16. A file that reads and parses, sent to a server that accepts it and
    answers with a body that parses: the rows go out in one request, the
    answer is logged, the listing is shown, and no message is set. *)
Theorem import_accepted
  (env : Env) (w : World) (file : File) (rest : list File)
  (data : string) (workbook : Workbook) (response : Response) (result : JsVal) :
  readAsBinaryString env file = ReadLoads data ->
  XLSX_read env data = Some workbook ->
  fetch env (bulk_request env workbook) = Some response ->
  ok response = true ->
  json response = Some result ->
  (import_pipeline (Some (file :: rest)) env w).2
  = {| formData := formData w;
       importError := None;
       trace := trace w ++ [EFetch (bulk_request env workbook);
                            EConsoleLog "Import successful:" result;
                            ENavigate "/businesses"] |}.
Proof.
  intros Hread Hparse Hfetch Hok Hjson.
  rewrite (import_parsed env w file rest data workbook Hread Hparse).
  simpl. by rewrite Hfetch, Hok, Hjson.
Qed.

Lemma import_accepted_witness :
  (import_pipeline (Some [sample_file])
     (sample_env (ReadLoads "PK") (Some joes_workbook)
        (Some {| ok := true; json := Some JNull |}))
     mounted).2
  = {| formData := initialBusinessForm;
       importError := None;
       trace := [EFetch (bulk_request
                           (sample_env (ReadLoads "PK") (Some joes_workbook)
                              (Some {| ok := true; json := Some JNull |}))
                           joes_workbook);
                 EConsoleLog "Import successful:" JNull;
                 ENavigate "/businesses"] |}.
Proof.
  exact (import_accepted
           (sample_env (ReadLoads "PK") (Some joes_workbook)
              (Some {| ok := true; json := Some JNull |}))
           mounted sample_file [] "PK" joes_workbook
           {| ok := true; json := Some JNull |} JNull
           eq_refl eq_refl eq_refl eq_refl eq_refl).
Defined.

(** X17. When the request of the import does not reach the server (the fetch
    promise rejects), the message is the one asking to check the spreadsheet
    format, the failure is logged, and the listing is not shown. *)
Theorem import_network_failure
  (env : Env) (w : World) (file : File) (rest : list File)
  (data : string) (workbook : Workbook) :
  readAsBinaryString env file = ReadLoads data ->
  XLSX_read env data = Some workbook ->
  fetch env (bulk_request env workbook) = None ->
  (import_pipeline (Some (file :: rest)) env w).2
  = {| formData := formData w;
       importError :=
         Some "Failed to import businesses. Please check your spreadsheet format.";
       trace := trace w ++ [EFetch (bulk_request env workbook);
                            EConsoleError "Import error:" FetchRejected] |}.
Proof.
  intros Hread Hparse Hfetch.
  rewrite (import_parsed env w file rest data workbook Hread Hparse).
  simpl. by rewrite Hfetch.
Qed.

Lemma import_network_failure_witness :
  importError (import_pipeline (Some [sample_file])
                 (sample_env (ReadLoads "PK") (Some joes_workbook) None) mounted).2
  = Some "Failed to import businesses. Please check your spreadsheet format.".
Proof.
  rewrite (import_network_failure
             (sample_env (ReadLoads "PK") (Some joes_workbook) None)
             mounted sample_file [] "PK" joes_workbook eq_refl eq_refl eq_refl).
  reflexivity.
Defined.

(** X18. When starting the read throws, the outer catch of the handler takes
    over: the message is Error processing file, the failure is logged, no
    reader event follows and nothing is sent. *)
Theorem import_read_throws
  (env : Env) (w : World) (file : File) (rest : list File) :
  readAsBinaryString env file = ReadThrows ->
  (import_pipeline (Some (file :: rest)) env w).2
  = {| formData := formData w;
       importError := Some "Error processing file";
       trace := trace w ++ [EConsoleError "File processing error:" ReaderUnusable] |}
  /\ (handleFileUpload (Some (file :: rest)) env w).1 = Returns None.
Proof.
  intros Hread. run_handlers. by rewrite Hread.
Qed.

Lemma import_read_throws_witness :
  importError (import_pipeline (Some [sample_file])
                 (sample_env ReadThrows None None) mounted).2
  = Some "Error processing file".
Proof.
  rewrite (proj1 (import_read_throws (sample_env ReadThrows None None)
                    mounted sample_file [] eq_refl)).
  reflexivity.
Defined.

(** X19. An import sends at most one request: none unless the selected
    file reads and its content parses, and otherwise the one POST to the
    bulk endpoint that carries the rows of the first sheet of the workbook
    the parser returned for that content.  It shows the listing at most
    once, and only when it has set no message. *)
Theorem import_at_most_one_request (files : option (list File)) (env : Env) (w : World) :
  requests (trace (import_pipeline files env w).2)
  = (requests (trace w)
     ++ match files ≫= head with
        | Some file =>
            match readAsBinaryString env file with
            | ReadLoads data =>
                match XLSX_read env data with
                | Some workbook => [bulk_request env workbook]
                | None => []
                end
            | _ => []
            end
        | None => []
        end)%list
  /\ (navigations (trace (import_pipeline files env w).2) = navigations (trace w)
      \/ (navigations (trace (import_pipeline files env w).2)
          = (navigations (trace w) ++ ["/businesses"])%list
          /\ importError (import_pipeline files env w).2 = None)).
Proof.
  destruct files as [[|file rest]|]; simpl;
    [rewrite app_nil_r; by split; [|left] | | rewrite app_nil_r; by split; [|left]].
  destruct (readAsBinaryString env file) as [| |data] eqn:Hread.
  - assert (H : (import_pipeline (Some (file :: rest)) env w).2
                = {| formData := formData w;
                     importError := Some "Error processing file";
                     trace := trace w
                       ++ [EConsoleError "File processing error:" ReaderUnusable] |}).
    { run_handlers. by rewrite Hread. }
    rewrite H. simpl. split; [|left]; by project_trace.
  - assert (H : (import_pipeline (Some (file :: rest)) env w).2
                = {| formData := formData w;
                     importError := Some "Error reading file";
                     trace := trace w |}).
    { run_handlers. by rewrite Hread. }
    rewrite H. simpl. rewrite app_nil_r. by split; [|left].
  - destruct (XLSX_read env data) as [workbook|] eqn:Hparse.
    + rewrite (import_parsed env w file rest data workbook Hread Hparse). simpl.
      split.
      * destruct (fetch env _) as [[ok_ json_]|]; simpl;
          [destruct ok_, json_; simpl|]; by project_trace.
      * destruct (fetch env _) as [[ok_ json_]|]; simpl;
          [destruct ok_, json_; simpl|];
          first [ left; by project_trace
                | right; split; [by project_trace | reflexivity] ].
    + rewrite (import_unreadable_workbook env w file rest data Hread Hparse). simpl.
      split; [|left]; by project_trace.
Qed.

(** ** More on the submit *)

(** The submit, by what the server does. *)
Lemma handleSubmit_run (env : Env) (w : World) :
  (handleSubmit env w).2
  = {| formData := formData w;
       importError := importError w;
       trace := trace w
         ++ [EPreventDefault; EFetch (create_request env (formData w))]
         ++ match fetch env (create_request env (formData w)) with
            | None => [EConsoleError "Error creating business:" FetchRejected]
            | Some response =>
                if ok response
                then [ENavigate "/businesses"]
                else [EConsoleError "Error creating business:"
                        (ErrorMsg "Failed to create business")]
            end |}.
Proof.
  unfold create_request. run_handlers.
  destruct (fetch env _) as [[ok_ json_]|]; simpl; [destruct ok_; simpl|];
    by rewrite <- ?app_assoc.
Qed.

(** X20. Every submit, accepted or not: the default action of the form is
    suppressed first; exactly one request goes out, to the businesses
    endpoint, and it carries a body; the listing is shown exactly when the
    server answers with a success status; the record and the message are
    left as they were. *)
Theorem handleSubmit_always (env : Env) (w : World) :
  formData (handleSubmit env w).2 = formData w
  /\ importError (handleSubmit env w).2 = importError w
  /\ (exists rest, trace (handleSubmit env w).2 = (trace w ++ EPreventDefault :: rest)%list)
  /\ requests (trace (handleSubmit env w).2)
     = (requests (trace w) ++ [create_request env (formData w)])%list
  /\ body (create_request env (formData w)) <> None
  /\ navigations (trace (handleSubmit env w).2)
     = (navigations (trace w)
        ++ match fetch env (create_request env (formData w)) with
           | Some response => if ok response then ["/businesses"] else []
           | None => []
           end)%list.
Proof.
  rewrite handleSubmit_run. simpl.
  split; [reflexivity|]. split; [reflexivity|].
  split; [by eexists|].
  split; [|split; [discriminate|]].
  - destruct (fetch env _) as [[ok_ json_]|]; simpl; [destruct ok_; simpl|];
      by project_trace.
  - destruct (fetch env _) as [[ok_ json_]|]; simpl; [destruct ok_; simpl|];
      by project_trace.
Qed.

(** X21. In a production build the address comes from the production
    variable alone: when that one is not set, the request goes to the
    relative address that starts with the word undefined, whatever the
    development variable holds. *)
Theorem submit_unset_production_url (env : Env) (w : World) :
  process_env env "NODE_ENV" = Some "production" ->
  process_env env "REACT_APP_API_URL_PROD" = None ->
  requests (trace (handleSubmit env w).2)
  = (requests (trace w)
     ++ [ {| url := "undefined/api/businesses";
             method := "POST";
             headers := [("Content-Type", "application/json")];
             body := JSON_stringify (JObj (formData w)) |} ])%list.
Proof.
  intros Hmode Hprod.
  rewrite handleSubmit_run. simpl.
  assert (Hurl : create_request env (formData w)
                 = {| url := "undefined/api/businesses";
                      method := "POST";
                      headers := [("Content-Type", "application/json")];
                      body := JSON_stringify (JObj (formData w)) |}).
  { unfold create_request, post_json, apiUrl.
    rewrite Hmode, Hprod. by rewrite decide_True. }
  rewrite Hurl.
  destruct (fetch env _) as [[ok_ json_]|]; simpl; [destruct ok_; simpl|];
    by project_trace.
Qed.

Lemma submit_unset_production_url_witness :
  map url (requests (trace (handleSubmit production_without_url mounted).2))
  = ["undefined/api/businesses"].
Proof.
  rewrite (submit_unset_production_url production_without_url mounted eq_refl eq_refl).
  reflexivity.
Defined.
